(** * xcb-util-xrm: the resource query layer (src/resource.c)

    A shallow embedding of [xcb_xrm_resource_get], the three value accessors
    and [xcb_xrm_resource_free], together with the properties the
    specification states about them.

    The C code works on pointers: the caller's output variable, the result
    container obtained from [calloc], and the parsed queries handed out by
    the parser.  The embedding keeps them: a pointer is [option addr]
    ([None] is NULL), the containers live in a finite map, and every call to
    a collaborator (allocator, parser, matcher, release routines) is logged
    in a trace so that statements about what was or was not invoked, and in
    which order, can be read off the final state. *)

From Stdlib Require Import ZArith Ascii String Lia DecimalString DecimalPos DecimalZ.
From stdpp Require Import base gmap strings list.

Local Open Scope Z_scope.

(** ** C library facts used by resource.c *)

Module C.

(** [long] on the LP64 targets the library is built for. *)
Definition LONG_BITS : Z := 64.
Definition LONG_MIN : Z := - 2 ^ (LONG_BITS - 1).
Definition LONG_MAX : Z := 2 ^ (LONG_BITS - 1) - 1.

(** The value of a character as [unsigned char]. *)
Definition code (c : ascii) : Z := Z.of_N (N_of_ascii c).

Definition isupper (c : ascii) : bool := (65 <=? code c) && (code c <=? 90).
Definition isdigit (c : ascii) : bool := (48 <=? code c) && (code c <=? 57).

(** [tolower] in the C locale. *)
Definition tolower (c : ascii) : Z := if isupper c then code c + 32 else code c.

(** [strlen]: a [string] holds the characters before the terminating NUL. *)
Definition strlen (s : string) : Z := Z.of_nat (String.length s).

(** [strcasecmp]: the difference of the first pair of characters that differ
    once lowered; the end of a text reads as the NUL terminator. *)
Fixpoint strcasecmp (s1 s2 : string) : Z :=
  match s1, s2 with
  | EmptyString, EmptyString => 0
  | EmptyString, String c2 _ => 0 - tolower c2
  | String c1 _, EmptyString => tolower c1 - 0
  | String c1 r1, String c2 r2 =>
      if tolower c1 =? tolower c2 then strcasecmp r1 r2
      else tolower c1 - tolower c2
  end.

(** A text as C can hold it: no NUL before the terminator. *)
Fixpoint nul_free (s : string) : bool :=
  match s with
  | EmptyString => true
  | String c r => negb (code c =? 0) && nul_free r
  end.

(** Conversion of a [long] to [bool] ([return converted;] in a function
    returning [bool]). *)
Definition bool_of_long (n : Z) : bool := negb (n =? 0).

End C.

(** ** The headers resource.c includes

    [util.h], [entry.h] (through [database.h]) and [match.h] are not part of
    the unit; what resource.c uses of them is taken as an interface. *)

Definition addr := positive.

(** [struct xcb_xrm_resource_t]: the one field resource.c touches.  The text
    is owned by the container, so it is kept inside it; [None] is a NULL
    [value]. *)
Record xcb_xrm_resource_t := { value : option string }.

(** util.h *)
Class util_h := {
  SUCCESS : Z;
  FAILURE : Z;
  (** [int str2long(long *out, const char *input, int base)], [input] being
      the pointer it is given: [Some v] is a return of 0 with [*out = v];
      [None] is any other return, [*out] untouched. *)
  str2long : option string -> Z -> option Z;
}.

(** entry.h *)
Class entry_h := {
  xcb_xrm_entry_t : Type;
  #[global] xcb_xrm_entry_eq_dec :: EqDecision xcb_xrm_entry_t;
  (** [int xcb_xrm_entry_parse(const char *str, xcb_xrm_entry_t **entry,
      bool resource_only)], called with [*entry == NULL]: the status and the
      content of [*entry] after the call. *)
  xcb_xrm_entry_parse : string -> bool -> Z * option xcb_xrm_entry_t;
  (** [int xcb_xrm_entry_num_components(xcb_xrm_entry_t *entry)] *)
  xcb_xrm_entry_num_components : option xcb_xrm_entry_t -> Z;
}.

(** database.h: [TAILQ_HEAD(xcb_xrm_database_t, xcb_xrm_entry_t)] *)
Definition xcb_xrm_database_t {E : entry_h} : Type := list xcb_xrm_entry_t.

Definition TAILQ_EMPTY {E : entry_h} (head : xcb_xrm_database_t) : bool :=
  match head with [] => true | _ :: _ => false end.

(** match.h *)
Class match_h {E : entry_h} := {
  (** [int xcb_xrm_match(database, query_name, query_class, resource)]: the
      status, and the containers as the matcher leaves them. *)
  xcb_xrm_match :
    option xcb_xrm_database_t -> option xcb_xrm_entry_t -> option xcb_xrm_entry_t ->
    option addr -> gmap addr xcb_xrm_resource_t ->
    Z * gmap addr xcb_xrm_resource_t;
}.

(** ** Program state *)

Section State.
Context {E : entry_h}.

(** What the unit asks of its collaborators, in program order. *)
Inductive event :=
| Ecalloc (p : option addr)
| Eentry_parse (str : string) (resource_only : bool)
               (status : Z) (entry : option xcb_xrm_entry_t)
| Ematch (database : option xcb_xrm_database_t)
         (query_name query_class : option xcb_xrm_entry_t)
         (resource : option addr) (status : Z)
| Eentry_free (entry : option xcb_xrm_entry_t)
| Efree_value (owner : addr) (text : string)
| Efree_resource (resource : addr).

Record world := World {
  (** the caller's [xcb_xrm_resource_t *] variables *)
  slots : gmap addr (option addr);
  (** the live result containers *)
  heap : gmap addr xcb_xrm_resource_t;
  (** how many more allocations the allocator grants *)
  calloc_budget : nat;
  trace : list event;
}.

(** A computation either goes wrong (a NULL or dangling pointer is
    dereferenced) or returns a value and the next state. *)
Definition M (A : Type) : Type := world -> option (A * world).

Definition ret {A} (a : A) : M A := fun w => Some (a, w).

Definition bind {A B} (m : M A) (k : A -> M B) : M B :=
  fun w => match m w with
           | Some (a, w') => k a w'
           | None => None
           end.

Definition undefined {A} : M A := fun _ => None.

Definition log (e : event) : M unit :=
  fun w => Some (tt, World (slots w) (heap w) (calloc_budget w) (trace w ++ [e])).

End State.

Declare Scope c_scope.
Delimit Scope c_scope with C.
Notation "x <- m ;; k" := (bind m (fun x => k))
  (at level 100, m at next level, right associativity) : c_scope.
Notation "m ;; k" := (bind m (fun _ => k))
  (at level 100, right associativity) : c_scope.
Local Open Scope c_scope.

Section Memory.
Context {E : entry_h}.

(** [*p = v] for a caller variable [p]. *)
Definition store (p : option addr) (v : option addr) : M unit :=
  match p with
  | None => undefined
  | Some l => fun w =>
      Some (tt, World (<[l := v]> (slots w)) (heap w) (calloc_budget w) (trace w))
  end.

(** [*p] for a caller variable [p]. *)
Definition load (p : option addr) : M (option addr) :=
  match p with
  | None => undefined
  | Some l => fun w =>
      match slots w !! l with
      | Some v => Some (v, w)
      | None => None
      end
  end.

(** What [calloc] hands out: every field zero. *)
Definition zeroed : xcb_xrm_resource_t := {| value := None |}.

(** [calloc(1, sizeof(struct xcb_xrm_resource_t))]: NULL when the allocator
    is exhausted, otherwise a fresh container with every field zero. *)
Definition calloc : M (option addr) :=
  fun w =>
    match calloc_budget w with
    | O => Some (None, World (slots w) (heap w) O (trace w ++ [Ecalloc None]))
    | S n =>
        let a := fresh (dom (heap w)) in
        Some (Some a, World (slots w) (<[a := zeroed]> (heap w)) n
                            (trace w ++ [Ecalloc (Some a)]))
    end.

(** [resource->value] *)
Definition get_value (resource : addr) : M (option string) :=
  fun w => match heap w !! resource with
           | Some r => Some (value r, w)
           | None => None
           end.

(** The characters behind a [const char *] handed to [strcasecmp], which
    reads them: a NULL text goes wrong. *)
Definition chars (p : option string) : M string :=
  match p with
  | Some text => ret text
  | None => undefined
  end.

End Memory.

(** ** Calls into the collaborators *)

Section Calls.
Context {E : entry_h} {X : match_h}.

Definition call_entry_parse (str : string) (resource_only : bool)
  : M (Z * option xcb_xrm_entry_t) :=
  let r := xcb_xrm_entry_parse str resource_only in
  log (Eentry_parse str resource_only (fst r) (snd r)) ;; ret r.

Definition call_match (database : option xcb_xrm_database_t)
    (query_name query_class : option xcb_xrm_entry_t) (resource : option addr)
  : M Z :=
  fun w =>
    let r := xcb_xrm_match database query_name query_class resource (heap w) in
    Some (fst r,
          World (slots w) (snd r) (calloc_budget w)
                (trace w ++ [Ematch database query_name query_class resource (fst r)])).

(** [xcb_xrm_entry_free(entry)] *)
Definition xcb_xrm_entry_free (entry : option xcb_xrm_entry_t) : M unit :=
  log (Eentry_free entry).

(** Modelled from the spec: the [FREE] macro of util.h, which is not under
    src/, applied to [resource->value]: it releases the owned text; a NULL
    text leaves nothing to release. *)
Definition FREE_value (resource : addr) : M unit :=
  fun w =>
    match heap w !! resource with
    | Some {| value := Some text |} =>
        Some (tt, World (slots w) (<[resource := {| value := None |}]> (heap w))
                        (calloc_budget w) (trace w ++ [Efree_value resource text]))
    | Some {| value := None |} => Some (tt, w)
    | None => None
    end.

(** Modelled from the spec: the [FREE] macro of util.h applied to the
    container itself: it releases the container. *)
Definition FREE_resource (resource : addr) : M unit :=
  fun w =>
    match heap w !! resource with
    | Some _ =>
        Some (tt, World (slots w) (delete resource (heap w))
                        (calloc_budget w) (trace w ++ [Efree_resource resource]))
    | None => None
    end.

End Calls.

(** ** resource.c *)

Definition non_null {A} (p : option A) : bool :=
  match p with Some _ => true | None => false end.

Section Resource.
Context {U : util_h} {E : entry_h} {X : match_h}.

(** The [done:] label of [xcb_xrm_resource_get], reached with the current
    [query_name], [query_class] and [result]. *)
Definition done (query_name query_class : option xcb_xrm_entry_t) (result : Z)
  : M Z :=
  xcb_xrm_entry_free query_name ;;
  xcb_xrm_entry_free query_class ;;
  ret result.

(** The condition of the second [if], which parses the name as a side
    effect: its truth value and [query_name] afterwards. *)
Definition name_is_malformed (res_name : option string)
    (query_name : option xcb_xrm_entry_t) : M (bool * option xcb_xrm_entry_t) :=
  match res_name with
  | None => ret (true, query_name)
  | Some name =>
      parsed <- call_entry_parse name true ;;
      ret (fst parsed <? 0, snd parsed)
  end.

(** The condition of the third [if], which parses the class as a side
    effect: its truth value and [query_class] afterwards. *)
Definition class_is_malformed (res_class : option string)
    (query_class : option xcb_xrm_entry_t) : M (bool * option xcb_xrm_entry_t) :=
  match res_class with
  | None => ret (false, query_class)
  | Some class =>
      if 0 <? C.strlen class then
        parsed <- call_entry_parse class true ;;
        ret (fst parsed <? 0, snd parsed)
      else ret (false, query_class)
  end.

(** [_resource] points to the caller's output variable; the status is
    returned.  The test after the allocation is on [_resource] itself, as in
    the source. *)
Definition xcb_xrm_resource_get (database : option xcb_xrm_database_t)
    (res_name res_class : option string) (_resource : option addr) : M Z :=
  let query_name : option xcb_xrm_entry_t := None in
  let query_class : option xcb_xrm_entry_t := None in
  let result := SUCCESS in
  if match database with None => true | Some db => TAILQ_EMPTY db end then
    store _resource None ;;
    ret (- FAILURE)
  else
    p <- calloc ;;
    store _resource p ;;
    if negb (non_null _resource) then
      let result := - FAILURE in
      done query_name query_class result
    else
      resource <- load _resource ;;
      checked <- name_is_malformed res_name query_name ;;
      let query_name := snd checked in
      if fst checked then
        let result := - FAILURE in
        done query_name query_class result
      else
        checked <- class_is_malformed res_class query_class ;;
        let query_class := snd checked in
        if fst checked then
          let result := -1 in
          done query_name query_class result
        else
          if non_null query_class
             && negb (xcb_xrm_entry_num_components query_name
                      =? xcb_xrm_entry_num_components query_class)
          then
            let result := -1 in
            done query_name query_class result
          else
            result <- call_match database query_name query_class resource ;;
            done query_name query_class result.

Definition xcb_xrm_resource_value (resource : option addr) : M (option string) :=
  match resource with
  | None => ret None
  | Some r => get_value r
  end.

Definition xcb_xrm_resource_value_long (resource : option addr) : M Z :=
  match resource with
  | None => ret C.LONG_MIN
  | Some r =>
      v <- get_value r ;;
      match str2long v 10 with
      | Some converted => ret converted
      | None => ret C.LONG_MIN
      end
  end.

Definition xcb_xrm_resource_value_bool (resource : option addr) : M bool :=
  match resource with
  | None => ret false
  | Some r =>
      v <- get_value r ;;
      match str2long v 10 with
      | Some converted => ret (C.bool_of_long converted)
      | None =>
          input <- chars v ;;
          if (C.strcasecmp input "true" =? 0)
             || (C.strcasecmp input "on" =? 0)
             || (C.strcasecmp input "yes" =? 0)
          then ret true
          else
            if (C.strcasecmp input "false" =? 0)
               || (C.strcasecmp input "off" =? 0)
               || (C.strcasecmp input "no" =? 0)
            then ret false
            else ret false
      end
  end.

Definition xcb_xrm_resource_free (resource : option addr) : M unit :=
  match resource with
  | None => ret tt
  | Some r =>
      FREE_value r ;;
      FREE_resource r
  end.

End Resource.

(** ** Reading the trace *)

Section Trace.
Context {E : entry_h}.

Definition is_match (e : event) : bool :=
  match e with Ematch _ _ _ _ _ => true | _ => false end.

(** Releasing one parsed query takes one copy out of the live ones. *)
Fixpoint release (q : xcb_xrm_entry_t) (live : list xcb_xrm_entry_t)
  : list xcb_xrm_entry_t :=
  match live with
  | [] => []
  | q' :: rest => if decide (q = q') then rest else q' :: release q rest
  end.

(** The parsed queries that are live after the calls of [t], given those
    live before: the parser hands one out, [xcb_xrm_entry_free] takes one
    back. *)
Fixpoint live_queries (t : list event) (live : list xcb_xrm_entry_t)
  : list xcb_xrm_entry_t :=
  match t with
  | [] => live
  | Eentry_parse _ _ _ (Some q) :: t' => live_queries t' (q :: live)
  | Eentry_free (Some q) :: t' => live_queries t' (release q live)
  | _ :: t' => live_queries t' live
  end.

(** What the next [calloc] returns in a state. *)
Definition allocated (w : world) : option addr :=
  match calloc_budget w with
  | O => None
  | S _ => Some (fresh (dom (heap w)))
  end.

(** What releasing the text of a container adds to the trace. *)
Definition text_release (r : addr) (res : xcb_xrm_resource_t) : list event :=
  match value res with
  | Some text => [Efree_value r text]
  | None => []
  end.

End Trace.

(** ** The specification's wording of the boolean coercion *)

Module Spec.

Definition lower (c : ascii) : ascii :=
  if C.isupper c then ascii_of_N (N_of_ascii c + 32) else c.

Fixpoint lowercase (s : string) : string :=
  match s with
  | EmptyString => EmptyString
  | String c r => String (lower c) (lowercase r)
  end.

(** Case-insensitive exact match of a text against a word. *)
Definition is_word (text word : string) : bool :=
  String.eqb (lowercase text) (lowercase word).

(** The rules (a) to (d), each with the condition under which it applies
    and the answer it gives. *)
Definition rules {U : util_h} (text : string) : list (bool * bool) :=
  [ (non_null (str2long (Some text) 10),
     match str2long (Some text) 10 with
     | Some n => negb (n =? 0)
     | None => false
     end);
    (is_word text "true" || is_word text "on" || is_word text "yes", true);
    (is_word text "false" || is_word text "off" || is_word text "no", false);
    (true, false) ].

(** The answer of the first rule that applies. *)
Fixpoint first_applicable (rs : list (bool * bool)) : option bool :=
  match rs with
  | [] => None
  | (applies, answer) :: rest =>
      if applies then Some answer else first_applicable rest
  end.

Definition as_boolean {U : util_h} (text : string) : option bool :=
  first_applicable (rules text).

End Spec.

(** ** Reference collaborators

    Small executable stand-ins for the parts that live outside resource.c,
    used to run the unit on concrete inputs. *)

Module Model.

(** The whole text read as a base-10 integer: an optional minus sign and at
    least one digit, nothing else. *)
Definition decimal (text : string) : option Z :=
  option_map Z.of_int (NilZero.int_of_string text).

(** The base-10 text of an integer. *)
Definition numeral (v : Z) : string := NilZero.string_of_int (Z.to_int v).

Definition in_long (v : Z) : bool := (C.LONG_MIN <=? v) && (v <=? C.LONG_MAX).

(** Modelled from the spec: [str2long] of util.c, which is not under src/.
    A base-10 integer parse of the entire text, not of a prefix; a text
    that is not a number, a number followed by anything else, and a value
    outside [long] are failures.  The accessors are total, so an absent text
    is a failure as well. *)
Definition parse_long (input : option string) (base : Z) : option Z :=
  match input with
  | Some text =>
      if base =? 10 then
        match decimal text with
        | Some v => if in_long v then Some v else None
        | None => None
        end
      else None
  | None => None
  end.

(** [SUCCESS] and [FAILURE] as the header comment of
    [xcb_xrm_resource_get] describes them: 0 and a positive code returned
    negated. *)
#[export] Instance util : util_h :=
  {| SUCCESS := 0; FAILURE := 1; str2long := parse_long |}.

(** Modelled from the spec: a parsed query or database entry of entry.c,
    which is not under src/: the ordered components, and for a database
    entry its text. *)
Record entry := Entry { components : list string; text : option string }.

#[export] Instance entry_eq_dec : EqDecision entry.
Proof. solve_decision. Defined.

Fixpoint split (s : string) (current : string) : list string :=
  match s with
  | EmptyString => [current]
  | String c r =>
      if Ascii.eqb c "." then current :: split r EmptyString
      else split r (current ++ String c EmptyString)
  end.

(** Modelled from the spec: the parser of entry.c: the text is cut at each
    tight binding marker (a dot) into a non-empty sequence of non-empty
    components; anything else is an error and leaves no parsed query. *)
Definition parse_query (str : string) (resource_only : bool) : Z * option entry :=
  let cs := split str EmptyString in
  if forallb (fun c => negb (String.eqb c EmptyString)) cs
  then (0, Some (Entry cs None))
  else (-1, None).

Definition num_components (e : option entry) : Z :=
  match e with
  | Some e => Z.of_nat (length (components e))
  | None => 0
  end.

#[export] Instance entries : entry_h :=
  {| xcb_xrm_entry_t := entry;
     xcb_xrm_entry_parse := parse_query;
     xcb_xrm_entry_num_components := num_components |}.

Definition lookup_text (database : list entry) (name : list string) : option string :=
  match List.find (fun e => bool_decide (components e = name)) database with
  | Some e => text e
  | None => None
  end.

(** Modelled from the spec: the matching engine of match.c, which is not
    under src/: the best entry is the first whose components are those of
    the name.  On a hit the text is stored in the container and the status
    is 0; without one the container is left alone and the status is
    [not_found], which the specification leaves to the engine.  A call
    without a database, a name or a container to store into fails. *)
Definition find_best (not_found : Z) (database : option (list entry))
    (query_name query_class : option entry) (resource : option addr)
    (h : gmap addr xcb_xrm_resource_t) : Z * gmap addr xcb_xrm_resource_t :=
  match database, query_name with
  | Some db, Some q =>
      match lookup_text db (components q) with
      | Some t =>
          match resource with
          | Some r => (0, <[r := {| value := Some t |}]> h)
          | None => (-1, h)
          end
      | None => (not_found, h)
      end
  | _, _ => (-1, h)
  end.

(** An engine for which "not found" is a success with nothing stored. *)
Definition lenient : match_h := {| xcb_xrm_match := find_best 0 |}.

(** An engine for which "not found" is an error code. *)
Definition strict : match_h := {| xcb_xrm_match := find_best (-1) |}.

(** An empty program state with room for [n] allocations. *)
Definition start (n : nat) : world := World ∅ ∅ n [].

(** A database with the single entry [a: hello]. *)
Definition database : list entry := [Entry ["a"%string] (Some "hello"%string)].

(** The caller's output variable in the runs below. *)
Definition out : addr := 1%positive.

(** A state whose only container, at [r], holds [text]. *)
Definition r : addr := 5%positive.

Definition holding (text : string) : world :=
  World ∅ (<[r := {| value := Some text |}]> ∅) 0 [].

(** A state whose only container, at [r], is as [calloc] hands it out and a
    matcher that found nothing leaves it. *)
Definition empty_handed : world := World ∅ (<[r := zeroed]> ∅) 0 [].

End Model.

(** ** What a caller does with a call *)

Section Callers.
Context {U : util_h} {E : entry_h} {X : match_h}.

Definition is_calloc (e : event) : bool :=
  match e with Ecalloc _ => true | _ => false end.

Definition is_entry_parse (e : event) : bool :=
  match e with Eentry_parse _ _ _ _ => true | _ => false end.

Definition is_entry_free (e : event) : bool :=
  match e with Eentry_free _ => true | _ => false end.

(** The [resource_only] flag of a call to the parser. *)
Definition in_resource_mode (e : event) : bool :=
  match e with Eentry_parse _ resource_only _ _ => resource_only | _ => true end.

(** How many calls of one kind a trace holds. *)
Definition calls (kind : event -> bool) (t : list event) : nat :=
  length (List.filter kind t).

(** A caller that fetches and then hands whatever its variable holds to
    [xcb_xrm_resource_free], as the header comment of
    [xcb_xrm_resource_get] asks. *)
Definition get_then_free (database : option xcb_xrm_database_t)
    (res_name res_class : option string) (_resource : option addr) : M Z :=
  status <- xcb_xrm_resource_get database res_name res_class _resource ;;
  resource <- load _resource ;;
  xcb_xrm_resource_free resource ;;
  ret status.

(** The container a call leaves in the caller's variable: none without a
    database, otherwise what [calloc] returns. *)
Definition handed_back (database : option xcb_xrm_database_t) (w : world)
  : option addr :=
  if match database with None => true | Some db => TAILQ_EMPTY db end
  then None else allocated w.

(** The containers once [calloc] has returned [p]. *)
Definition with_container (p : option addr) (h : gmap addr xcb_xrm_resource_t)
  : gmap addr xcb_xrm_resource_t :=
  match p with
  | Some r => <[r := zeroed]> h
  | None => h
  end.

End Callers.

(** * Properties *)

(** ** The C library *)

Section CLib.

Lemma code_range c : 0 <= C.code c < 256.
Proof.
  unfold C.code. pose proof (N_ascii_bounded c). lia.
Qed.

Lemma code_inj c1 c2 : C.code c1 = C.code c2 -> c1 = c2.
Proof.
  unfold C.code. intros Hc. apply N2Z.inj in Hc.
  rewrite <- (ascii_N_embedding c1), <- (ascii_N_embedding c2). now f_equal.
Qed.

Lemma tolower_lower c : C.tolower c = C.code (Spec.lower c).
Proof.
  unfold C.tolower, Spec.lower. destruct (C.isupper c) eqn:Hup; [|reflexivity].
  unfold C.isupper in Hup. apply andb_prop in Hup as [Hlo Hhi].
  apply Z.leb_le in Hlo, Hhi. unfold C.code in *.
  rewrite N_ascii_embedding by lia. lia.
Qed.

Lemma tolower_eqb c1 c2 :
  (C.tolower c1 =? C.tolower c2) = Ascii.eqb (Spec.lower c1) (Spec.lower c2).
Proof.
  rewrite !tolower_lower.
  destruct (Ascii.eqb_spec (Spec.lower c1) (Spec.lower c2)) as [->|Hne].
  - apply Z.eqb_refl.
  - apply Z.eqb_neq. intros Hc. now apply Hne, code_inj.
Qed.

Lemma tolower_pos c : C.code c <> 0 -> 0 < C.tolower c.
Proof.
  intros Hc. pose proof (code_range c). unfold C.tolower.
  destruct (C.isupper c); lia.
Qed.

(** On texts, [strcasecmp] answers 0 exactly for a case-insensitive
    match. *)
Lemma strcasecmp_is_word s w :
  C.nul_free s = true -> C.nul_free w = true ->
  (C.strcasecmp s w =? 0) = Spec.is_word s w.
Proof.
  unfold Spec.is_word. revert w.
  induction s as [|c1 r1 IH]; intros [|c2 r2] Hs Hw; cbn in *.
  - reflexivity.
  - apply andb_prop in Hw as [Hc _]. apply negb_true_iff, Z.eqb_neq in Hc.
    apply tolower_pos in Hc. apply Z.eqb_neq. lia.
  - apply andb_prop in Hs as [Hc _]. apply negb_true_iff, Z.eqb_neq in Hc.
    apply tolower_pos in Hc. apply Z.eqb_neq. lia.
  - apply andb_prop in Hs as [_ Hs]. apply andb_prop in Hw as [_ Hw].
    rewrite <- tolower_eqb.
    destruct (C.tolower c1 =? C.tolower c2) eqn:Hc.
    + now apply IH.
    + apply Z.eqb_neq in Hc. apply Z.eqb_neq. lia.
Qed.

End CLib.

(** ** The value accessors *)

Section Accessors.
Context {U : util_h} {E : entry_h}.

Lemma get_value_live (r : addr) (res : xcb_xrm_resource_t) (w : world) :
  heap w !! r = Some res -> get_value r w = Some (value res, w).
Proof. unfold get_value. now intros ->. Qed.

(** On a live container holding a text, [xcb_xrm_resource_value_bool]
    gives the answer of the first applicable rule among (a) the text is a
    base-10 integer: its truthiness, (b) the text is "true", "on" or "yes"
    in any case: true, (c) it is "false", "off" or "no" in any case: false,
    (d) otherwise: false; and it leaves the state as it was. *)
Theorem resource_value_bool_rules (r : addr) (text : string) (w : world) :
  heap w !! r = Some {| value := Some text |} ->
  C.nul_free text = true ->
  exists answer,
    Spec.as_boolean text = Some answer /\
    xcb_xrm_resource_value_bool (Some r) w = Some (answer, w).
Proof.
  intros Hlive Htext.
  unfold xcb_xrm_resource_value_bool, bind.
  rewrite (get_value_live _ _ _ Hlive). cbn.
  unfold Spec.as_boolean, Spec.rules.
  destruct (str2long (Some text) 10) as [converted|]; cbn.
  - eexists; split; reflexivity.
  - rewrite !strcasecmp_is_word by (assumption || reflexivity).
    destruct (Spec.is_word text "true" || Spec.is_word text "on"
              || Spec.is_word text "yes"); cbn.
    + eexists; split; reflexivity.
    + destruct (Spec.is_word text "false" || Spec.is_word text "off"
                || Spec.is_word text "no"); cbn;
        eexists; split; reflexivity.
Qed.

(** C8: on a NULL resource each accessor returns, in any state and without
    touching it: no text, [LONG_MIN], and false. *)
Theorem accessors_on_null (w : world) :
  xcb_xrm_resource_value None w = Some (None, w) /\
  xcb_xrm_resource_value_long None w = Some (C.LONG_MIN, w) /\
  xcb_xrm_resource_value_bool None w = Some (false, w).
Proof. repeat split. Qed.

End Accessors.

(** ** Reading a number *)

Section Decimal.
Context {E : entry_h}.

Lemma decimal_numeral v : Model.decimal (Model.numeral v) = Some v.
Proof.
  unfold Model.decimal, Model.numeral.
  rewrite NilZero.isi.
  - cbn. now rewrite DecimalZ.of_to.
  - destruct v as [|p|p]; cbn; try discriminate.
    intros [= Hp]. now apply (Unsigned.to_uint_nonnil p).
  - destruct v as [|p|p]; cbn; try discriminate.
    intros [= Hp]. now apply (Unsigned.to_uint_nonnil p).
Qed.

Lemma uint_of_char_other c d : C.isdigit c = false -> uint_of_char c d = None.
Proof.
  destruct d as [d|]; [|reflexivity].
  destruct c as [[|] [|] [|] [|] [|] [|] [|] [|]]; cbn;
    solve [reflexivity | discriminate].
Qed.

Lemma uint_of_string_other s c rest :
  C.isdigit c = false ->
  NilEmpty.uint_of_string (s ++ String c rest)%string = None.
Proof.
  intros Hc. induction s as [|a s IH]; simpl.
  - now apply uint_of_char_other.
  - now rewrite IH.
Qed.

(** One character that is neither a digit nor the leading minus sign makes
    the whole text unreadable, whatever comes before and after it. *)
Lemma decimal_other s c rest :
  C.isdigit c = false -> (s = EmptyString -> c <> "-"%char) ->
  Model.decimal (s ++ String c rest)%string = None.
Proof.
  intros Hc Hminus. unfold Model.decimal, NilZero.int_of_string.
  destruct s as [|a s]; simpl.
  - destruct (Ascii.eqb_spec c "-") as [->|_]; [now destruct Hminus|].
    now rewrite uint_of_char_other.
  - rewrite (uint_of_string_other s c rest Hc).
    destruct (Ascii.eqb a "-"); simpl.
    + unfold NilZero.uint_of_string.
      rewrite (uint_of_string_other s c rest Hc).
      now destruct (s ++ String c rest)%string.
    + reflexivity.
Qed.

Lemma value_long_model (r : addr) (res : xcb_xrm_resource_t) (w : world) :
  heap w !! r = Some res ->
  xcb_xrm_resource_value_long (U := Model.util) (Some r) w =
    Some (match value res with
          | Some text =>
              match Model.decimal text with
              | Some v => if Model.in_long v then v else C.LONG_MIN
              | None => C.LONG_MIN
              end
          | None => C.LONG_MIN
          end, w).
Proof.
  intros Hlive. unfold xcb_xrm_resource_value_long, bind.
  rewrite (get_value_live _ _ _ Hlive). cbn. unfold Model.parse_long.
  destruct (value res) as [text|]; [|reflexivity]. cbn.
  destruct (Model.decimal text) as [v|]; [|reflexivity].
  now destruct (Model.in_long v).
Qed.

Lemma in_long_true v : C.LONG_MIN <= v <= C.LONG_MAX -> Model.in_long v = true.
Proof.
  intros Hv. unfold Model.in_long. apply andb_true_intro.
  split; apply Z.leb_le; lia.
Qed.

Lemma in_long_false v : ~ C.LONG_MIN <= v <= C.LONG_MAX -> Model.in_long v = false.
Proof.
  intros Hv. unfold Model.in_long. apply andb_false_iff.
  destruct (Z.leb_spec C.LONG_MIN v); [|now left].
  destruct (Z.leb_spec v C.LONG_MAX); [lia|now right].
Qed.

(** C7: with [str2long] reading the whole text as a base-10 integer,
    [xcb_xrm_resource_value_long] on a live container returns the number its
    text denotes when the text is one and fits a [long], and [LONG_MIN] when
    the text is not a number, has anything else in it, denotes a number
    outside [long], or is absent; so "42" gives 42 and "abc" gives
    [LONG_MIN]. *)
Theorem resource_value_long_parses (r : addr) (res : xcb_xrm_resource_t)
    (w : world) :
  heap w !! r = Some res ->
  (forall (text : string) (v : Z),
     value res = Some text -> Model.decimal text = Some v ->
     C.LONG_MIN <= v <= C.LONG_MAX ->
     xcb_xrm_resource_value_long (U := Model.util) (Some r) w = Some (v, w)) /\
  (forall v : Z,
     value res = Some (Model.numeral v) -> C.LONG_MIN <= v <= C.LONG_MAX ->
     xcb_xrm_resource_value_long (U := Model.util) (Some r) w = Some (v, w)) /\
  (forall text : string,
     value res = Some text -> Model.decimal text = None ->
     xcb_xrm_resource_value_long (U := Model.util) (Some r) w
     = Some (C.LONG_MIN, w)) /\
  (forall (s : string) (c : ascii) (rest : string),
     value res = Some (s ++ String c rest)%string -> C.isdigit c = false ->
     (s = EmptyString -> c <> "-"%char) ->
     xcb_xrm_resource_value_long (U := Model.util) (Some r) w
     = Some (C.LONG_MIN, w)) /\
  (forall (text : string) (v : Z),
     value res = Some text -> Model.decimal text = Some v ->
     ~ C.LONG_MIN <= v <= C.LONG_MAX ->
     xcb_xrm_resource_value_long (U := Model.util) (Some r) w
     = Some (C.LONG_MIN, w)) /\
  (value res = Some "42"%string ->
     xcb_xrm_resource_value_long (U := Model.util) (Some r) w = Some (42, w)) /\
  (value res = Some "abc"%string ->
     xcb_xrm_resource_value_long (U := Model.util) (Some r) w
     = Some (C.LONG_MIN, w)) /\
  (value res = None ->
     xcb_xrm_resource_value_long (U := Model.util) (Some r) w
     = Some (C.LONG_MIN, w)).
Proof.
  intros Hlive. rewrite (value_long_model r res w Hlive).
  repeat split.
  - intros text v -> -> Hv. now rewrite in_long_true.
  - intros v -> Hv. now rewrite decimal_numeral, in_long_true.
  - now intros text -> ->.
  - intros s c rest -> Hc Hminus. now rewrite decimal_other.
  - intros text v -> -> Hv. now rewrite in_long_false.
  - now intros ->.
  - now intros ->.
  - now intros ->.
Qed.

End Decimal.

(** ** Releasing a resource *)

Section Release.
Context {E : entry_h}.

(** C10: [xcb_xrm_resource_free] does nothing on NULL; on a live container
    it releases the owned text first, then the container, which is gone
    from the heap afterwards. *)
Theorem resource_free_releases (r : addr) (res : xcb_xrm_resource_t) (w : world) :
  heap w !! r = Some res ->
  xcb_xrm_resource_free None w = Some (tt, w) /\
  xcb_xrm_resource_free (Some r) w =
    Some (tt, World (slots w) (delete r (heap w)) (calloc_budget w)
                    (trace w ++ text_release r res ++ [Efree_resource r])).
Proof.
  intros Hlive. split; [reflexivity|].
  unfold xcb_xrm_resource_free, bind, FREE_value, FREE_resource, text_release.
  rewrite Hlive. destruct res as [[text|]]; cbn.
  - rewrite lookup_insert_eq, delete_insert_eq, <- app_assoc. reflexivity.
  - rewrite Hlive. reflexivity.
Qed.

End Release.

(** ** Fetching a resource *)

Section Get.
Context {U : util_h} {E : entry_h} {X : match_h}.

Implicit Types (database : option xcb_xrm_database_t) (out : addr) (w : world).

(** Unfolds one call of [xcb_xrm_resource_get] down to the state
    primitives, leaving the maps alone. *)
Ltac run :=
  unfold xcb_xrm_resource_get, name_is_malformed, class_is_malformed, done,
    call_entry_parse,
    call_match, xcb_xrm_entry_free, calloc, store, load, log, bind, ret,
    allocated;
  cbn [fst snd slots heap calloc_budget trace non_null negb TAILQ_EMPTY].

(** C5: without a database (NULL or empty), and whatever the queries are,
    [xcb_xrm_resource_get] stores NULL in the caller's variable and returns
    a negative status; nothing is allocated, parsed or matched. *)
Theorem resource_get_no_database database res_name res_class out w :
  0 < FAILURE ->
  database = None \/ database = Some [] ->
  exists status w',
    xcb_xrm_resource_get database res_name res_class (Some out) w
    = Some (status, w') /\
    status < 0 /\
    slots w' !! out = Some None /\
    heap w' = heap w /\ calloc_budget w' = calloc_budget w /\
    trace w' = trace w.
Proof.
  intros Hfail [-> | ->]; run;
    (eexists _, _; split; [reflexivity|]);
    cbn [slots heap calloc_budget trace];
    rewrite lookup_insert_eq; repeat split; lia.
Qed.

(** One step through the part after the allocation, by cases on what the
    parser and the comparison of the component counts answer. *)
Ltac step :=
  first
    [ progress cbn [fst snd slots heap calloc_budget trace non_null negb andb]
    | rewrite lookup_insert_eq
    | match goal with
      | |- context [match ?n with O => _ | S _ => _ end] => destruct n eqn:?
      | |- context [match ?o with Some _ => _ | None => _ end] =>
          is_var o; destruct o
      | |- context [xcb_xrm_entry_parse ?s ?b] =>
          destruct (xcb_xrm_entry_parse s b) as [? ?]
      | |- context [if ?c then _ else _] => destruct c eqn:?
      end ].

Ltac cases := repeat step.

Lemma strlen_nonempty (s : string) : s <> EmptyString -> (0 <? C.strlen s) = true.
Proof.
  intros Hs. apply Z.ltb_lt. unfold C.strlen.
  destruct s; [congruence | cbn; lia].
Qed.

(** C1: the caller's variable is NULL after a call that had no database,
    and otherwise holds what the allocator returned, whatever the status:
    a failure after the allocation leaves the container with the caller. *)
Theorem resource_get_output database res_name res_class out w :
  exists status w',
    xcb_xrm_resource_get database res_name res_class (Some out) w
    = Some (status, w') /\
    slots w' !! out =
      Some (match database with
            | Some (_ :: _) => allocated w
            | _ => None
            end).
Proof.
  destruct database as [[|e db]|]; run; cases;
    (eexists _, _; split; [reflexivity|]);
    cbn [slots]; now rewrite lookup_insert_eq.
Qed.

(** C2: when the allocator returns NULL the call goes on: the name is
    parsed, and for a name that parses and no class the matcher is called
    with a NULL container; the status is the matcher's. *)
Theorem resource_get_calloc_null e (db : xcb_xrm_database_t) name out w :
  calloc_budget w = O ->
  0 <= fst (xcb_xrm_entry_parse name true) ->
  let parsed := xcb_xrm_entry_parse name true in
  let found := xcb_xrm_match (Some (e :: db)) (snd parsed) None None (heap w) in
  xcb_xrm_resource_get (Some (e :: db)) (Some name) None (Some out) w
  = Some (fst found,
          World (<[out := None]> (slots w)) (snd found) O
                (trace w ++ [Ecalloc None;
                             Eentry_parse name true (fst parsed) (snd parsed);
                             Ematch (Some (e :: db)) (snd parsed) None None
                                    (fst found);
                             Eentry_free (snd parsed);
                             Eentry_free None])).
Proof.
  intros Hbudget Hstatus. apply Z.ltb_ge in Hstatus.
  run. rewrite Hbudget.
  repeat first [rewrite Hstatus | rewrite lookup_insert_eq
               | progress cbn [fst snd slots heap calloc_budget trace non_null
                               negb andb]].
  rewrite <- !app_assoc. reflexivity.
Qed.

(** C3: with a database, room for the container, a name that parses into
    one component and no class, the caller gets the fresh container and
    the status of the matcher, unchanged; the containers are as the
    matcher leaves them, so a matcher that stores nothing leaves the
    caller with a container whose text is absent. *)
Theorem resource_get_single_component e (db : xcb_xrm_database_t) name
    res_class out w status query_name :
  calloc_budget w <> O ->
  xcb_xrm_entry_parse name true = (status, query_name) ->
  0 <= status ->
  xcb_xrm_entry_num_components query_name = 1 ->
  res_class = None \/ res_class = Some EmptyString ->
  let r := fresh (dom (heap w)) in
  let found := xcb_xrm_match (Some (e :: db)) query_name None (Some r)
                             (<[r := zeroed]> (heap w)) in
  exists w',
    xcb_xrm_resource_get (Some (e :: db)) (Some name) res_class (Some out) w
    = Some (fst found, w') /\
    slots w' !! out = Some (Some r) /\
    heap w' = snd found /\
    (snd found = <[r := zeroed]> (heap w) ->
     xcb_xrm_resource_value (Some r) w' = Some (None, w')).
Proof.
  intros Hbudget Hparse Hstatus _ Hclass. apply Z.ltb_ge in Hstatus.
  destruct (calloc_budget w) as [|n] eqn:Hn; [congruence|].
  destruct Hclass as [-> | ->]; run; rewrite Hn, Hparse;
    change (0 <? C.strlen EmptyString) with false;
    repeat first [rewrite Hstatus | rewrite lookup_insert_eq
                 | progress cbn [fst snd slots heap calloc_budget trace
                                 non_null negb andb]];
    (eexists; split; [reflexivity|]);
    cbn [slots heap]; rewrite lookup_insert_eq;
    (split; [reflexivity|]); (split; [reflexivity|]);
    intros Hkept; unfold xcb_xrm_resource_value, get_value; cbn [heap];
    rewrite Hkept, lookup_insert_eq; reflexivity.
Qed.

(** C4: when the name and a given class both parse and have different
    numbers of components, the status is negative and the matcher is not
    called, for every database. *)
Theorem resource_get_arity_mismatch database name class out w
    status_name query_name status_class query_class :
  0 < FAILURE ->
  xcb_xrm_entry_parse name true = (status_name, Some query_name) ->
  0 <= status_name ->
  class <> EmptyString ->
  xcb_xrm_entry_parse class true = (status_class, Some query_class) ->
  0 <= status_class ->
  xcb_xrm_entry_num_components (Some query_name)
    <> xcb_xrm_entry_num_components (Some query_class) ->
  exists status w' t,
    xcb_xrm_resource_get database (Some name) (Some class) (Some out) w
    = Some (status, w') /\
    status < 0 /\
    trace w' = trace w ++ t /\
    forallb (fun e => negb (is_match e)) t = true.
Proof.
  intros Hfail Hname Hsn Hclass%strlen_nonempty Hquery Hsc Hcount.
  apply Z.ltb_ge in Hsn, Hsc. apply Z.eqb_neq in Hcount.
  destruct database as [[|e db]|]; run.
  1, 3: exists (- FAILURE); eexists; exists []; rewrite app_nil_r;
        repeat split; lia.
  repeat first [rewrite Hname | rewrite Hquery | rewrite Hclass | rewrite Hsn
               | rewrite Hsc | rewrite Hcount | step];
    (eexists _, _, _; split; [reflexivity|]);
    cbn [trace]; rewrite <- !app_assoc;
    (split; [lia|]); split; reflexivity.
Qed.

(** C9: every parsed query the parser hands out during a call is given
    back to [xcb_xrm_entry_free] before the call returns, on every path:
    none is live afterwards. *)
Theorem resource_get_releases_queries database res_name res_class out w :
  exists status w' t,
    xcb_xrm_resource_get database res_name res_class (Some out) w
    = Some (status, w') /\
    trace w' = trace w ++ t /\
    live_queries t [] = [].
Proof.
  destruct database as [[|e db]|]; run.
  1, 3: eexists _, _, []; rewrite app_nil_r; repeat split.
  cases;
    (eexists _, _, _; split; [reflexivity|]);
    cbn [trace]; rewrite <- !app_assoc;
    (split; [reflexivity|]);
    repeat match goal with
           | q : option xcb_xrm_entry_t |- _ => destruct q
           end;
    cbn [app live_queries release];
    repeat (case_decide; cbn [release]); congruence.
Qed.

End Get.

(** ** Concrete runs *)

Section Runs.

#[local] Existing Instance Model.util.
#[local] Existing Instance Model.entries.

Import Model.

Example value_bool_YES :
  xcb_xrm_resource_value_bool (Some r) (holding "YES") = Some (true, holding "YES").
Proof. reflexivity. Qed.

Example value_bool_Off :
  xcb_xrm_resource_value_bool (Some r) (holding "Off") = Some (false, holding "Off").
Proof. reflexivity. Qed.

Example value_bool_7 :
  xcb_xrm_resource_value_bool (Some r) (holding "7") = Some (true, holding "7").
Proof. reflexivity. Qed.

Example value_bool_0 :
  xcb_xrm_resource_value_bool (Some r) (holding "0") = Some (false, holding "0").
Proof. reflexivity. Qed.

Example value_bool_maybe :
  xcb_xrm_resource_value_bool (Some r) (holding "maybe")
  = Some (false, holding "maybe").
Proof. reflexivity. Qed.

Example value_long_trailing :
  xcb_xrm_resource_value_long (Some r) (holding "42x")
  = Some (C.LONG_MIN, holding "42x").
Proof. reflexivity. Qed.

Example value_long_overflow :
  xcb_xrm_resource_value_long (Some r) (holding "9223372036854775808")
  = Some (C.LONG_MIN, holding "9223372036854775808").
Proof. reflexivity. Qed.

Example value_long_sentinel_text :
  xcb_xrm_resource_value_long (Some r) (holding "-9223372036854775808")
  = Some (C.LONG_MIN, holding "-9223372036854775808").
Proof. reflexivity. Qed.

(** A text is found: the container holds a copy and the status is 0. *)
Example get_found :
  exists w',
    xcb_xrm_resource_get (X := Model.strict) (Some Model.database)
      (Some "a"%string) None (Some out) (Model.start 1) = Some (0, w') /\
    xcb_xrm_resource_value (Some 1%positive) w' = Some (Some "hello"%string, w').
Proof. eexists. split; vm_compute; reflexivity. Qed.

Lemma resource_value_bool_rules_witness :
  exists answer,
    Spec.as_boolean "YES" = Some answer /\
    xcb_xrm_resource_value_bool (Some r) (holding "YES")
    = Some (answer, holding "YES").
Proof.
  apply (resource_value_bool_rules r "YES" (holding "YES")); reflexivity.
Defined.

Lemma resource_value_long_parses_witness :
  xcb_xrm_resource_value_long (Some r) (holding "42") = Some (42, holding "42").
Proof.
  destruct (resource_value_long_parses r {| value := Some "42"%string |}
              (holding "42"))
    as (_ & _ & _ & _ & _ & H42 & _); [reflexivity|].
  apply H42. reflexivity.
Defined.

(** On a container without a text the boolean accessor has no result:
    [strcasecmp] is handed a NULL text. *)
Lemma value_bool_without_text :
  xcb_xrm_resource_value (Some r) empty_handed = Some (None, empty_handed) /\
  xcb_xrm_resource_value_bool (Some r) empty_handed = None.
Proof. split; reflexivity. Qed.

Lemma resource_free_releases_witness :
  xcb_xrm_resource_free None (holding "hello") = Some (tt, holding "hello") /\
  xcb_xrm_resource_free (Some r) (holding "hello")
  = Some (tt, World ∅ (delete r (heap (holding "hello"))) 0
                    [Efree_value r "hello"; Efree_resource r]).
Proof.
  apply (resource_free_releases r {| value := Some "hello"%string |}
           (holding "hello")).
  reflexivity.
Defined.

Lemma resource_get_no_database_witness :
  exists status w',
    xcb_xrm_resource_get (X := Model.lenient) (Some []) (Some "a"%string)
      (Some "x"%string) (Some out) (Model.start 1) = Some (status, w') /\
    status < 0 /\
    slots w' !! out = Some None /\
    heap w' = heap (Model.start 1) /\
    calloc_budget w' = calloc_budget (Model.start 1) /\
    trace w' = trace (Model.start 1).
Proof.
  apply (resource_get_no_database (X := Model.lenient)).
  - reflexivity.
  - right. reflexivity.
Defined.

Lemma resource_get_calloc_null_witness :
  xcb_xrm_resource_get (X := Model.lenient) (Some Model.database)
    (Some "b"%string) None (Some out) (Model.start 0)
  = Some (0, World (<[out := None]> ∅) ∅ 0
                   [Ecalloc None;
                    Eentry_parse "b" true 0 (Some (Model.Entry ["b"%string] None));
                    Ematch (Some Model.database)
                           (Some (Model.Entry ["b"%string] None)) None None 0;
                    Eentry_free (Some (Model.Entry ["b"%string] None));
                    Eentry_free None]).
Proof.
  apply (resource_get_calloc_null (X := Model.lenient)
           (Model.Entry ["a"%string] (Some "hello"%string)) [] "b" out
           (Model.start 0)).
  - reflexivity.
  - simpl. lia.
Defined.

Lemma resource_get_single_component_witness :
  exists w',
    xcb_xrm_resource_get (X := Model.lenient) (Some Model.database)
      (Some "b"%string) None (Some out) (Model.start 1) = Some (0, w') /\
    slots w' !! out = Some (Some 1%positive) /\
    xcb_xrm_resource_value (Some 1%positive) w' = Some (None, w').
Proof.
  destruct (resource_get_single_component (X := Model.lenient)
              (Model.Entry ["a"%string] (Some "hello"%string)) [] "b" None out
              (Model.start 1) 0 (Some (Model.Entry ["b"%string] None)))
    as (w' & Hrun & Hout & _ & Hvalue).
  - simpl. lia.
  - reflexivity.
  - lia.
  - reflexivity.
  - left. reflexivity.
  - exists w'. split; [exact Hrun|]. split; [exact Hout|].
    apply Hvalue. reflexivity.
Defined.

Lemma resource_get_arity_mismatch_witness :
  exists status w' t,
    xcb_xrm_resource_get (X := Model.lenient) (Some Model.database)
      (Some "a.b"%string) (Some "x"%string) (Some out) (Model.start 1)
    = Some (status, w') /\
    status < 0 /\
    trace w' = trace (Model.start 1) ++ t /\
    forallb (fun e => negb (is_match e)) t = true.
Proof.
  apply (resource_get_arity_mismatch (X := Model.lenient) (Some Model.database)
           "a.b" "x" out (Model.start 1)
           0 (Model.Entry ["a"%string; "b"%string] None)
           0 (Model.Entry ["x"%string] None)).
  - reflexivity.
  - reflexivity.
  - lia.
  - discriminate.
  - reflexivity.
  - lia.
  - simpl. lia.
Defined.

(** A call that fails after the allocation: the name is NULL, the status
    is negative, and the caller's variable holds the container. *)
Lemma resource_get_failure_keeps_container :
  exists w',
    xcb_xrm_resource_get (X := Model.lenient) (Some Model.database)
      None None (Some out) (Model.start 1) = Some (-1, w') /\
    slots w' !! out = Some (Some 1%positive) /\
    heap w' !! 1%positive = Some zeroed.
Proof. eexists. repeat split; vm_compute; reflexivity. Qed.

(** Two calls with a database, a one-component name and no class: with an
    engine that reports "not found" as an error the status is negative;
    with no room for the container the caller's variable is NULL. *)
Lemma resource_get_single_component_fails :
  (xcb_xrm_entry_parse "b" true = (0, Some (Model.Entry ["b"%string] None)) /\
   xcb_xrm_entry_num_components (Some (Model.Entry ["b"%string] None)) = 1 /\
   exists w',
     xcb_xrm_resource_get (X := Model.strict) (Some Model.database)
       (Some "b"%string) None (Some out) (Model.start 1) = Some (-1, w')) /\
  (exists status w',
     xcb_xrm_resource_get (X := Model.lenient) (Some Model.database)
       (Some "b"%string) None (Some out) (Model.start 0) = Some (status, w') /\
     slots w' !! out = Some None).
Proof.
  split.
  - split; [reflexivity|]. split; [reflexivity|].
    eexists. vm_compute. reflexivity.
  - eexists _, _. split; vm_compute; reflexivity.
Qed.

End Runs.

(** ** More on fetching a resource *)

Section GetMore.
Context {U : util_h} {E : entry_h} {X : match_h}.

Implicit Types (database : option xcb_xrm_database_t) (out : addr) (w : world).

Ltac unfold_get :=
  unfold get_then_free, xcb_xrm_resource_get, name_is_malformed,
    class_is_malformed, done, call_entry_parse, call_match, xcb_xrm_entry_free,
    calloc, store, load, log, bind, ret;
  cbn [fst snd slots heap calloc_budget trace non_null negb TAILQ_EMPTY].

Ltac by_case :=
  first
    [ progress cbn [fst snd slots heap calloc_budget trace non_null negb andb]
    | rewrite lookup_insert_eq
    | match goal with
      | |- context [match ?n with O => _ | S _ => _ end] => destruct n eqn:?
      | |- context [match ?o with Some _ => _ | None => _ end] =>
          is_var o; destruct o
      | |- context [xcb_xrm_entry_parse ?s ?b] =>
          destruct (xcb_xrm_entry_parse s b) as [? ?]
      | |- context [if ?c then _ else _] => destruct c eqn:?
      end ].

(** A class that is NULL or the empty string is never handed to the parser:
    the call with the empty string behaves as the call with NULL, and in
    both the only text parsed, if any, is the name. *)
Theorem resource_get_empty_class database res_name res_class out w :
  res_class = None \/ res_class = Some EmptyString ->
  xcb_xrm_resource_get database res_name res_class (Some out) w
  = xcb_xrm_resource_get database res_name None (Some out) w /\
  exists status w' t,
    xcb_xrm_resource_get database res_name res_class (Some out) w
    = Some (status, w') /\
    trace w' = trace w ++ t /\
    (calls is_entry_parse t <= 1)%nat /\
    (forall str mode st q,
       In (Eentry_parse str mode st q) t -> res_name = Some str).
Proof.
  intros Hclass.
  split; [destruct Hclass as [-> | ->]; reflexivity|].
  destruct Hclass as [-> | ->];
    (destruct database as [[|e db]|]; unfold_get;
     change (0 <? C.strlen EmptyString) with false;
     [ eexists _, _, []; rewrite app_nil_r; (split; [reflexivity|]);
       cbn; repeat split; [lia | tauto]
     | repeat by_case;
       (eexists _, _, _; split; [reflexivity|]);
       cbn [trace]; rewrite <- !app_assoc;
       (split; [reflexivity|]); cbn; (split; [lia|]);
       intros str mode st q Hin;
       repeat (destruct Hin as [Hin | Hin]; try discriminate Hin);
       try contradiction; congruence
     | eexists _, _, []; rewrite app_nil_r; (split; [reflexivity|]);
       cbn; repeat split; [lia | tauto] ]).
Qed.

(** No path guards the output pointer: with [_resource == NULL] every call
    goes wrong at its first store, with or without a database. *)
Theorem resource_get_null_output database res_name res_class w :
  xcb_xrm_resource_get database res_name res_class None w = None.
Proof.
  destruct database as [[|e db]|]; unfold_get; try reflexivity.
  now destruct (calloc_budget w).
Qed.

(** One call asks for at most one container, parses at most two texts, both
    in resource-only mode, and calls the matcher at most once; with a
    database it calls [xcb_xrm_entry_free] exactly twice, without one never;
    the allocator loses at most one grant. *)
Theorem resource_get_calls database res_name res_class out w :
  exists status w' t,
    xcb_xrm_resource_get database res_name res_class (Some out) w
    = Some (status, w') /\
    trace w' = trace w ++ t /\
    (calls is_calloc t <= 1)%nat /\
    (calls is_entry_parse t <= 2)%nat /\
    forallb in_resource_mode t = true /\
    (calls is_match t <= 1)%nat /\
    calls is_entry_free t
      = (if match database with None => true | Some db => TAILQ_EMPTY db end
         then 0%nat else 2%nat) /\
    (calloc_budget w' <= calloc_budget w <= S (calloc_budget w'))%nat.
Proof.
  destruct database as [[|e db]|]; unfold_get.
  1, 3: eexists _, _, []; rewrite app_nil_r;
        (split; [reflexivity|]); cbn; repeat split; lia.
  repeat by_case;
    (eexists _, _, _; split; [reflexivity|]);
    cbn [trace calloc_budget]; rewrite <- !app_assoc;
    (split; [reflexivity|]); cbn; repeat split; lia.
Qed.

(** A status that is not negative is never made up by the call itself: it is
    the status the matcher returned, on the database the caller gave. *)
Theorem resource_get_status_origin database res_name res_class out w :
  0 < FAILURE ->
  exists status w' t,
    xcb_xrm_resource_get database res_name res_class (Some out) w
    = Some (status, w') /\
    trace w' = trace w ++ t /\
    (0 <= status ->
     exists query_name query_class resource,
       In (Ematch database query_name query_class resource status) t).
Proof.
  intros Hfail.
  destruct database as [[|e db]|]; unfold_get.
  1, 3: eexists _, _, []; rewrite app_nil_r;
        (split; [reflexivity|]); (split; [reflexivity|]);
        intros Hstatus; exfalso; lia.
  repeat by_case;
    (eexists _, _, _; split; [reflexivity|]);
    cbn [trace]; rewrite <- !app_assoc;
    (split; [reflexivity|]); intros Hstatus; try (exfalso; lia);
    eexists _, _, _; cbn; auto 10.
Qed.

(** A name that is NULL or that the parser rejects: the status is -FAILURE,
    the class is not parsed, the matcher is not called, and the container
    handed back is as [calloc] left it, every other container untouched. *)
Theorem resource_get_malformed_name e (db : xcb_xrm_database_t) res_name
    res_class out w :
  res_name = None \/
  (exists name, res_name = Some name /\ fst (xcb_xrm_entry_parse name true) < 0) ->
  exists w' t,
    xcb_xrm_resource_get (Some (e :: db)) res_name res_class (Some out) w
    = Some (- FAILURE, w') /\
    trace w' = trace w ++ t /\
    t = Ecalloc (allocated w) ::
        match res_name with
        | None => [Eentry_free None; Eentry_free None]
        | Some name =>
            [Eentry_parse name true (fst (xcb_xrm_entry_parse name true))
                          (snd (xcb_xrm_entry_parse name true));
             Eentry_free (snd (xcb_xrm_entry_parse name true));
             Eentry_free None]
        end /\
    (calls is_entry_parse t <= 1)%nat /\
    calls is_match t = 0%nat /\
    slots w' !! out = Some (allocated w) /\
    heap w' = with_container (allocated w) (heap w).
Proof.
  intros [-> | (name & -> & Hname%Z.ltb_lt)]; unfold_get; unfold allocated;
    repeat first
      [ rewrite Hname
      | progress cbn [fst snd slots heap calloc_budget trace non_null negb andb]
      | rewrite lookup_insert_eq
      | match goal with
        | |- context [match ?n with O => _ | S _ => _ end] => destruct n eqn:?
        end ];
    (eexists _, _; split; [reflexivity|]);
    cbn [trace slots heap]; rewrite <- !app_assoc, lookup_insert_eq;
    (split; [reflexivity|]); (split; [reflexivity|]);
    cbn; repeat split; lia.
Qed.

(** A class that is given and that the parser rejects, after a name that
    parses: the status is -1, the matcher is not called, and the container
    handed back is as [calloc] left it, every other container untouched. *)
Theorem resource_get_malformed_class e (db : xcb_xrm_database_t) name class
    out w :
  0 <= fst (xcb_xrm_entry_parse name true) ->
  class <> EmptyString ->
  fst (xcb_xrm_entry_parse class true) < 0 ->
  exists w' t,
    xcb_xrm_resource_get (Some (e :: db)) (Some name) (Some class) (Some out) w
    = Some (-1, w') /\
    trace w' = trace w ++ t /\
    t = [Ecalloc (allocated w);
         Eentry_parse name true (fst (xcb_xrm_entry_parse name true))
                      (snd (xcb_xrm_entry_parse name true));
         Eentry_parse class true (fst (xcb_xrm_entry_parse class true))
                      (snd (xcb_xrm_entry_parse class true));
         Eentry_free (snd (xcb_xrm_entry_parse name true));
         Eentry_free (snd (xcb_xrm_entry_parse class true))] /\
    calls is_match t = 0%nat /\
    calls is_entry_free t = 2%nat /\
    slots w' !! out = Some (allocated w) /\
    heap w' = with_container (allocated w) (heap w).
Proof.
  intros Hname%Z.ltb_ge Hlen Hclass%Z.ltb_lt.
  assert (Hpos : (0 <? C.strlen class) = true).
  { apply Z.ltb_lt. unfold C.strlen. destruct class; [congruence | cbn; lia]. }
  unfold_get; unfold allocated;
    repeat first
      [ rewrite Hname | rewrite Hclass | rewrite Hpos
      | progress cbn [fst snd slots heap calloc_budget trace non_null negb andb]
      | rewrite lookup_insert_eq
      | match goal with
        | |- context [match ?n with O => _ | S _ => _ end] => destruct n eqn:?
        end ];
    (eexists _, _; split; [reflexivity|]);
    cbn [trace slots heap]; rewrite <- !app_assoc, lookup_insert_eq;
    (split; [reflexivity|]); (split; [reflexivity|]);
    cbn; repeat split; lia.
Qed.

(** A name and a given class that both parse, with the same number of
    components, and room for the container: the matcher is called once, with
    the database, both parsed queries and the fresh container; its status is
    returned, both queries are released afterwards, name first, and
    [xcb_xrm_resource_value] on the caller's container reads what the
    matcher stored. *)
Theorem resource_get_with_class e (db : xcb_xrm_database_t) name class out w
    status_name query_name status_class query_class :
  calloc_budget w <> O ->
  xcb_xrm_entry_parse name true = (status_name, query_name) ->
  0 <= status_name ->
  class <> EmptyString ->
  xcb_xrm_entry_parse class true = (status_class, Some query_class) ->
  0 <= status_class ->
  xcb_xrm_entry_num_components query_name
  = xcb_xrm_entry_num_components (Some query_class) ->
  let r := fresh (dom (heap w)) in
  let found := xcb_xrm_match (Some (e :: db)) query_name (Some query_class)
                             (Some r) (<[r := zeroed]> (heap w)) in
  exists w',
    xcb_xrm_resource_get (Some (e :: db)) (Some name) (Some class) (Some out) w
    = Some (fst found, w') /\
    trace w' = trace w ++
      [Ecalloc (Some r);
       Eentry_parse name true status_name query_name;
       Eentry_parse class true status_class (Some query_class);
       Ematch (Some (e :: db)) query_name (Some query_class) (Some r) (fst found);
       Eentry_free query_name;
       Eentry_free (Some query_class)] /\
    slots w' !! out = Some (Some r) /\
    heap w' = snd found /\
    (forall res, snd found !! r = Some res ->
       xcb_xrm_resource_value (Some r) w' = Some (value res, w')).
Proof.
  intros Hbudget Hname Hsn%Z.ltb_ge Hlen Hclass Hsc%Z.ltb_ge Hcount%Z.eqb_eq.
  assert (Hpos : (0 <? C.strlen class) = true).
  { apply Z.ltb_lt. unfold C.strlen. destruct class; [congruence | cbn; lia]. }
  destruct (calloc_budget w) as [|n] eqn:Hn; [congruence|].
  unfold_get. rewrite Hn.
  repeat first [rewrite Hname | rewrite Hclass | rewrite Hpos | rewrite Hsn
               | rewrite Hsc | rewrite Hcount | rewrite lookup_insert_eq
               | progress cbn [fst snd slots heap calloc_budget trace non_null
                               negb andb]].
  eexists. split; [reflexivity|].
  cbn [trace slots heap]. rewrite <- !app_assoc, lookup_insert_eq.
  repeat split.
  intros res Hres. unfold xcb_xrm_resource_value, get_value. cbn [heap].
  now rewrite Hres.
Qed.

(** Where a call ends without the matcher: the caller's variable holds what
    [handed_back] says and the containers are those of before plus the one
    from [calloc]. *)
Lemma resource_get_unmatched database res_name res_class out w :
  exists status w' t,
    xcb_xrm_resource_get database res_name res_class (Some out) w
    = Some (status, w') /\
    trace w' = trace w ++ t /\
    slots w' !! out = Some (handed_back database w) /\
    (calls is_match t = 0%nat ->
     heap w' = with_container (handed_back database w) (heap w)).
Proof.
  unfold handed_back.
  destruct database as [[|e db]|]; unfold_get; unfold allocated.
  1, 3: eexists _, _, []; rewrite app_nil_r;
        (split; [reflexivity|]); cbn [slots heap];
        rewrite lookup_insert_eq; repeat split.
  repeat by_case;
    (eexists _, _, _; split; [reflexivity|]);
    cbn [trace slots heap]; rewrite <- !app_assoc, lookup_insert_eq;
    (split; [reflexivity|]); (split; [reflexivity|]);
    cbn; intros Hcalls; solve [reflexivity | discriminate].
Qed.

(** No leak on the paths that end before the matcher: fetching and then
    releasing what the caller's variable holds leaves the containers exactly
    as they were before the call, with the status of the fetch. *)
Theorem get_then_free_restores database res_name res_class out w :
  exists status w1 t,
    xcb_xrm_resource_get database res_name res_class (Some out) w
    = Some (status, w1) /\
    trace w1 = trace w ++ t /\
    (calls is_match t = 0%nat ->
     exists w',
       get_then_free database res_name res_class (Some out) w
       = Some (status, w') /\
       heap w' = heap w).
Proof.
  destruct (resource_get_unmatched database res_name res_class out w)
    as (status & w1 & t & Hget & Htrace & Hout & Hheap).
  exists status, w1, t. split; [exact Hget|]. split; [exact Htrace|].
  intros Hcalls. specialize (Hheap Hcalls).
  unfold get_then_free, bind. rewrite Hget. unfold load. rewrite Hout.
  unfold handed_back, allocated in *.
  destruct (match database with None => true | Some db => TAILQ_EMPTY db end).
  - eexists. split; [reflexivity|]. exact Hheap.
  - destruct (calloc_budget w).
    + eexists. split; [reflexivity|]. exact Hheap.
    + unfold xcb_xrm_resource_free, bind, FREE_value, FREE_resource, ret.
      cbn [with_container] in Hheap. rewrite !Hheap, !lookup_insert_eq.
      cbv beta iota delta [zeroed]. rewrite ?Hheap, ?lookup_insert_eq.
      eexists. split; [reflexivity|]. cbn [heap].
      rewrite ?Hheap. apply delete_insert_id.
      apply not_elem_of_dom, is_fresh.
Qed.

End GetMore.

(** ** More on the accessors and on releasing *)

Section AccessorsMore.
Context {U : util_h} {E : entry_h}.

(** The accessors only read: whatever they return, the state is the one
    they were called in. *)
Theorem accessors_read_only (resource : option addr) (w : world) :
  (forall v w', xcb_xrm_resource_value resource w = Some (v, w') -> w' = w) /\
  (forall n w', xcb_xrm_resource_value_long resource w = Some (n, w') -> w' = w) /\
  (forall b w', xcb_xrm_resource_value_bool resource w = Some (b, w') -> w' = w).
Proof.
  unfold xcb_xrm_resource_value, xcb_xrm_resource_value_long,
    xcb_xrm_resource_value_bool, get_value, chars, bind, ret, undefined.
  destruct resource as [r|]; [|repeat split; congruence].
  destruct (heap w !! r) as [[v]|]; [|repeat split; congruence].
  cbn [value]. repeat split; [congruence | |].
  - intros n w'. destruct (str2long v 10); congruence.
  - intros b w'. destruct (str2long v 10); [congruence|].
    destruct v as [text|]; [|discriminate].
    repeat match goal with
           | |- context [if ?c then _ else _] => destruct c
           end; congruence.
Qed.

(** When the integer accessor gives anything but [LONG_MIN], the boolean
    accessor gives the truthiness of that number, whatever the text spells. *)
Theorem value_bool_of_value_long (r : addr) (n : Z) (w w' : world) :
  xcb_xrm_resource_value_long (Some r) w = Some (n, w') ->
  n <> C.LONG_MIN ->
  xcb_xrm_resource_value_bool (Some r) w = Some (negb (n =? 0), w).
Proof.
  unfold xcb_xrm_resource_value_long, xcb_xrm_resource_value_bool, get_value,
    bind, ret.
  destruct (heap w !! r) as [[v]|]; [|discriminate]. cbn [value].
  destruct (str2long v 10) as [converted|]; intros [= <- <-] Hn.
  - reflexivity.
  - congruence.
Qed.

Lemma resource_free_run (r : addr) (res : xcb_xrm_resource_t) (w : world) :
  heap w !! r = Some res ->
  exists t,
    xcb_xrm_resource_free (Some r) w =
      Some (tt, World (slots w) (delete r (heap w)) (calloc_budget w)
                      (trace w ++ t)).
Proof.
  intros Hlive.
  unfold xcb_xrm_resource_free, bind, FREE_value, FREE_resource.
  rewrite Hlive. destruct res as [[text|]]; cbn.
  - rewrite lookup_insert_eq, delete_insert_eq, <- app_assoc. eexists. reflexivity.
  - rewrite Hlive. eexists. reflexivity.
Qed.

(** Releasing a container touches nothing else: the caller's variables keep
    their content, so one that pointed to the container now dangles, and
    every other container is as before.  Through the dangling pointer each
    accessor and a second release go wrong. *)
Theorem resource_free_then_use (r : addr) (res : xcb_xrm_resource_t) (w : world) :
  heap w !! r = Some res ->
  exists w',
    xcb_xrm_resource_free (Some r) w = Some (tt, w') /\
    slots w' = slots w /\
    (forall r', r' <> r -> heap w' !! r' = heap w !! r') /\
    xcb_xrm_resource_value (Some r) w' = None /\
    xcb_xrm_resource_value_long (Some r) w' = None /\
    xcb_xrm_resource_value_bool (Some r) w' = None /\
    xcb_xrm_resource_free (Some r) w' = None.
Proof.
  intros Hlive. destruct (resource_free_run r res w Hlive) as [t Hfree].
  eexists. split; [exact Hfree|]. cbn [slots heap].
  split; [reflexivity|].
  split; [intros r' Hr'; now apply lookup_delete_ne|].
  unfold xcb_xrm_resource_value, xcb_xrm_resource_value_long,
    xcb_xrm_resource_value_bool, xcb_xrm_resource_free, get_value, FREE_value,
    bind.
  cbn [heap]. rewrite lookup_delete_eq. repeat split.
Qed.

End AccessorsMore.

(** ** More concrete runs *)

Section MoreRuns.

#[local] Existing Instance Model.util.
#[local] Existing Instance Model.entries.

Import Model.

Lemma resource_get_empty_class_witness :
  xcb_xrm_resource_get (X := lenient) (Some database) (Some "a"%string)
    (Some EmptyString) (Some out) (start 1)
  = xcb_xrm_resource_get (X := lenient) (Some database) (Some "a"%string)
      None (Some out) (start 1) /\
  exists status w' t,
    xcb_xrm_resource_get (X := lenient) (Some database) (Some "a"%string)
      (Some EmptyString) (Some out) (start 1) = Some (status, w') /\
    trace w' = trace (start 1) ++ t /\
    (calls is_entry_parse t <= 1)%nat /\
    (forall str mode st q,
       In (Eentry_parse str mode st q) t -> Some "a"%string = Some str).
Proof.
  apply (resource_get_empty_class (X := lenient)). right. reflexivity.
Defined.

Lemma resource_get_status_origin_witness :
  exists status w' t,
    xcb_xrm_resource_get (X := lenient) (Some database) (Some "a"%string) None
      (Some out) (start 1) = Some (status, w') /\
    trace w' = trace (start 1) ++ t /\
    (0 <= status ->
     exists query_name query_class resource,
       In (Ematch (Some database) query_name query_class resource status) t).
Proof.
  apply (resource_get_status_origin (X := lenient)). reflexivity.
Defined.

Lemma resource_get_malformed_name_witness :
  exists w' t,
    xcb_xrm_resource_get (X := lenient) (Some database) (Some "a..b"%string)
      (Some "x"%string) (Some out) (start 1) = Some (-1, w') /\
    trace w' = trace (start 1) ++ t /\
    t = [Ecalloc (Some 1%positive);
         Eentry_parse "a..b" true (-1) None;
         Eentry_free None;
         Eentry_free None] /\
    (calls is_entry_parse t <= 1)%nat /\
    calls is_match t = 0%nat /\
    slots w' !! out = Some (allocated (start 1)) /\
    heap w' = with_container (allocated (start 1)) (heap (start 1)).
Proof.
  refine (resource_get_malformed_name (X := lenient)
            (Entry ["a"%string] (Some "hello"%string)) [] (Some "a..b"%string)
            (Some "x"%string) out (start 1) _).
  right. exists "a..b"%string. split; [reflexivity|]. simpl. lia.
Defined.

Lemma resource_get_malformed_class_witness :
  exists w' t,
    xcb_xrm_resource_get (X := lenient) (Some database) (Some "a"%string)
      (Some "x..y"%string) (Some out) (start 1) = Some (-1, w') /\
    trace w' = trace (start 1) ++ t /\
    t = [Ecalloc (Some 1%positive);
         Eentry_parse "a" true 0 (Some (Entry ["a"%string] None));
         Eentry_parse "x..y" true (-1) None;
         Eentry_free (Some (Entry ["a"%string] None));
         Eentry_free None] /\
    calls is_match t = 0%nat /\
    calls is_entry_free t = 2%nat /\
    slots w' !! out = Some (allocated (start 1)) /\
    heap w' = with_container (allocated (start 1)) (heap (start 1)).
Proof.
  refine (resource_get_malformed_class (X := lenient)
            (Entry ["a"%string] (Some "hello"%string)) [] "a" "x..y" out
            (start 1) _ _ _).
  - simpl. lia.
  - discriminate.
  - simpl. lia.
Defined.

Lemma resource_get_with_class_witness :
  exists w',
    xcb_xrm_resource_get (X := lenient) (Some database) (Some "a"%string)
      (Some "x"%string) (Some out) (start 1) = Some (0, w') /\
    slots w' !! out = Some (Some 1%positive) /\
    xcb_xrm_resource_value (Some 1%positive) w' = Some (Some "hello"%string, w').
Proof.
  destruct (resource_get_with_class (X := lenient)
              (Entry ["a"%string] (Some "hello"%string)) [] "a" "x" out (start 1)
              0 (Some (Entry ["a"%string] None)) 0 (Entry ["x"%string] None))
    as (w' & Hrun & _ & Hout & _ & Hvalue).
  - simpl. lia.
  - reflexivity.
  - lia.
  - discriminate.
  - reflexivity.
  - lia.
  - reflexivity.
  - exists w'. split; [exact Hrun|]. split; [exact Hout|].
    apply (Hvalue {| value := Some "hello"%string |}). reflexivity.
Defined.

Lemma get_then_free_restores_witness :
  exists w',
    get_then_free (X := lenient) (Some database) None None (Some out) (start 1)
    = Some (-1, w') /\
    heap w' = heap (start 1).
Proof.
  destruct (get_then_free_restores (X := lenient) (Some database) None None out
              (start 1)) as (status & w1 & t & Hget & Htrace & Hfree).
  assert (Hw1 : status = -1 /\ t = [Ecalloc (Some 1%positive); Eentry_free None;
                                    Eentry_free None]).
  { vm_compute in Hget. injection Hget as <- <-. vm_compute in Htrace.
    split; [reflexivity | symmetry; exact Htrace]. }
  destruct Hw1 as [-> ->]. apply Hfree. reflexivity.
Defined.

Lemma accessors_read_only_witness :
  match xcb_xrm_resource_value_long (Some r) (holding "42") with
  | Some (n, w') => n = 42 /\ w' = holding "42"
  | None => False
  end.
Proof.
  destruct (accessors_read_only (Some r) (holding "42")) as (_ & Hlong & _).
  specialize (Hlong 42 (holding "42")).
  split; [reflexivity|]. apply Hlong. reflexivity.
Defined.

Lemma value_bool_of_value_long_witness :
  xcb_xrm_resource_value_bool (Some r) (holding "42")
  = Some (true, holding "42").
Proof.
  apply (value_bool_of_value_long r 42 (holding "42") (holding "42")).
  - reflexivity.
  - discriminate.
Defined.

Lemma resource_free_then_use_witness :
  exists w',
    xcb_xrm_resource_free (Some r) (holding "hello") = Some (tt, w') /\
    slots w' = slots (holding "hello") /\
    (forall r', r' <> r -> heap w' !! r' = heap (holding "hello") !! r') /\
    xcb_xrm_resource_value (Some r) w' = None /\
    xcb_xrm_resource_value_long (Some r) w' = None /\
    xcb_xrm_resource_value_bool (Some r) w' = None /\
    xcb_xrm_resource_free (Some r) w' = None.
Proof.
  apply (resource_free_then_use r {| value := Some "hello"%string |}
           (holding "hello")).
  reflexivity.
Defined.

End MoreRuns.

(** ** The boolean accessor on a container without a text *)

Section NullText.
Context {U : util_h} {E : entry_h}.

(** C6: on a live container whose text is NULL, as [calloc] hands it out
    and a matcher that found nothing leaves it, the boolean accessor does
    not fall through to false: the NULL text goes to [str2long] and, when
    that reports a failure, to [strcasecmp], which reads it; the call has a
    result only if [str2long] converts a NULL text, and then it is the
    truthiness of that number. *)
Theorem resource_value_bool_null_text (r : addr) (w : world) :
  heap w !! r = Some {| value := None |} ->
  xcb_xrm_resource_value (Some r) w = Some (None, w) /\
  xcb_xrm_resource_value_bool (Some r) w =
    match str2long None 10 with
    | Some converted => Some (C.bool_of_long converted, w)
    | None => None
    end.
Proof.
  intros Hlive.
  unfold xcb_xrm_resource_value, xcb_xrm_resource_value_bool, bind.
  rewrite (get_value_live _ _ _ Hlive). cbn [value].
  split; [reflexivity|].
  now destruct (str2long None 10).
Qed.

End NullText.

Section NullTextRun.

#[local] Existing Instance Model.util.
#[local] Existing Instance Model.entries.

Lemma resource_value_bool_null_text_witness :
  xcb_xrm_resource_value (Some Model.r) Model.empty_handed
  = Some (None, Model.empty_handed) /\
  xcb_xrm_resource_value_bool (Some Model.r) Model.empty_handed = None.
Proof.
  refine (resource_value_bool_null_text Model.r Model.empty_handed _).
  reflexivity.
Defined.

End NullTextRun.
